(** * PlayerColour: the colour of a player and its neopixel colour

    Verification of [arduino/include/PlayerColour.hpp] and
    [arduino/src/PlayerColour.cpp].

    The development has three layers:
    - [Header]: the declarations of [PlayerColour.hpp] as data;
    - the functional model [playerColourToNeopixelColour], a function on the
      integer values of the enumeration;
    - [Exec]: the body of the function as C++ statements run over an
      arbitrary program state, tied to the functional model by
      [body_returns]. *)

From Stdlib Require Import ZArith List String Lia Bool.
Import ListNotations.

Local Open Scope Z_scope.

(** ** Machine integers *)

(** [uint32_t]: an integer in [0, 2^32); conversion to it wraps around. *)
Definition uint32 : Type := Z.

Definition to_uint32 (z : Z) : uint32 := z mod 2 ^ 32.

Definition is_uint32 (z : Z) : Prop := 0 <= z < 2 ^ 32.

(** ** The enumeration *)

(** [enum PlayerColour { RED, YELLOW, EMPTY };] is an unscoped enumeration
    without a fixed underlying type: a value of the type is an integer, the
    enumerators are numbered from 0 in the order of their declaration, and a
    cast can produce integers that are none of the three.  A value is
    therefore modelled by its integer. *)
Definition PlayerColour : Type := Z.

Definition RED : PlayerColour := 0.
Definition YELLOW : PlayerColour := 1.
Definition EMPTY : PlayerColour := 2.

(** ** The functional model *)

(** [switch (colour)] compares the integer value with the case labels; each
    arm returns a literal, converted to the return type [uint32_t]. *)
Definition playerColourToNeopixelColour (colour : PlayerColour) : uint32 :=
  if colour =? RED then to_uint32 0xFF0000
  else if colour =? YELLOW then to_uint32 0xFFFF00
  else to_uint32 0x000000.

(** ** The declarations of the header *)

Module Header.

Inductive ctype : Type :=
| Tuint32_t
| Tenum (name : string).

Record prototype : Type := Prototype {
  returns : ctype;
  name : string;
  parameters : list (ctype * string)
}.

Inductive declaration : Type :=
| EnumDecl (name : string) (enumerators : list string)
| FunctionDecl (p : prototype).

(** [PlayerColour.hpp], declaration by declaration. *)
Definition PlayerColour_hpp : list declaration :=
  [ EnumDecl "PlayerColour" ["RED"; "YELLOW"; "EMPTY"]%string;
    FunctionDecl
      {| returns := Tuint32_t;
         name := "playerColourToNeopixelColour";
         parameters := [(Tenum "PlayerColour", "colour"%string)] |} ].

(** The functions a header declares. *)
Definition functions (h : list declaration) : list prototype :=
  flat_map (fun d => match d with
                     | FunctionDecl p => [p]
                     | EnumDecl _ _ => []
                     end) h.

(** The enumerations a header declares, each with its enumerators. *)
Definition enums (h : list declaration) : list (string * list string) :=
  flat_map (fun d => match d with
                     | EnumDecl n es => [(n, es)]
                     | FunctionDecl _ => []
                     end) h.

(** The value of an enumerator without initialiser: its position, counted
    from [first]. *)
Fixpoint position (e : string) (es : list string) (first : Z) : option Z :=
  match es with
  | [] => None
  | e' :: rest =>
      if String.eqb e e' then Some first else position e rest (first + 1)
  end.

Definition enumerator_value (h : list declaration) (e : string) : option Z :=
  match enums h with
  | (_, es) :: _ => position e es 0
  | [] => None
  end.

(** The signature in the words of the specification's section on external
    interfaces, for comparison with the declared one. *)
Definition specified_signature : prototype :=
  {| returns := Tuint32_t;
     name := "convertPlayerColourToDisplayColour";
     parameters := [(Tenum "PlayerColour", "colour"%string)] |}.

End Header.

(** ** The function body as statements *)

Module Exec.

Section Statements.

(** The state of the running program: globals, heap, device registers,
    whatever has been written to the outside.  Nothing is assumed of it. *)
Variable World : Type.
Variable A : Type.

(** How a statement ends: with a [return], or by reaching its end. *)
Inductive completion : Type :=
| Returned (v : A)
| Normal.

Definition stmt : Type := World -> completion * World.

Definition Return (v : A) : stmt := fun w => (Returned v, w).

Definition Skip : stmt := fun w => (Normal, w).

Definition Seq (s1 s2 : stmt) : stmt :=
  fun w =>
    match s1 w with
    | (Returned v, w') => (Returned v, w')
    | (Normal, w') => s2 w'
    end.

Inductive label : Type :=
| Case (v : Z)
| Default.

Definition is_case (x : Z) (l : label) : bool :=
  match l with
  | Case v => x =? v
  | Default => false
  end.

Definition is_default (l : label) : bool :=
  match l with
  | Case _ => false
  | Default => true
  end.

(** The statements of a switch body from the first label accepted by [p]
    to the closing brace: control falls through the later labels. *)
Fixpoint from_label (p : label -> bool) (body : list (label * stmt))
  : option stmt :=
  match body with
  | [] => None
  | (l, s) :: rest =>
      if p l then Some (fold_right Seq Skip (s :: map snd rest))
      else from_label p rest
  end.

(** [switch (x) { body }]: jump to the case label equal to [x], else to
    [default:], else past the switch. *)
Definition switch (x : Z) (body : list (label * stmt)) : stmt :=
  match from_label (is_case x) body with
  | Some s => s
  | None =>
      match from_label is_default body with
      | Some s => s
      | None => Skip
      end
  end.

(** A call of a function with body [body].  [None] when control flows off
    the end of the body without a [return]: the call has no value. *)
Definition call (body : stmt) : World -> option A * World :=
  fun w =>
    match body w with
    | (Returned v, w') => (Some v, w')
    | (Normal, w') => (None, w')
    end.

End Statements.

Arguments Returned {A} v.
Arguments Normal {A}.
Arguments Return {World A} v.
Arguments Skip {World A}.
Arguments Seq {World A} s1 s2.
Arguments switch {World A} x body.
Arguments call {World A} body.

Section Body.

Variable World : Type.

(** The body of [playerColourToNeopixelColour], lines 3 to 10. *)
Definition playerColourToNeopixelColour_body (colour : PlayerColour)
  : stmt World uint32 :=
  switch colour
    [ (Case RED, Return (to_uint32 0xFF0000));
      (Case YELLOW, Return (to_uint32 0xFFFF00));
      (Default, Return (to_uint32 0x000000)) ].

Definition playerColourToNeopixelColour_call (colour : PlayerColour)
  : World -> option uint32 * World :=
  call (playerColourToNeopixelColour_body colour).

(** [n] calls one after the other, each in the state the one before left:
    the results and the final state. *)
Fixpoint calls (n : nat) (colour : PlayerColour) (w : World)
  : list (option uint32) * World :=
  match n with
  | O => ([], w)
  | S n' =>
      let (r, w1) := playerColourToNeopixelColour_call colour w in
      let (rs, w2) := calls n' colour w1 in
      (r :: rs, w2)
  end.

End Body.

Arguments playerColourToNeopixelColour_body {World} colour.
Arguments playerColourToNeopixelColour_call {World} colour.
Arguments calls {World} n colour w.

End Exec.

(** ** Packed RGB *)

(** The packed colour format of the specification's glossary, for comparison
    with the values the function returns: red in bits 16 to 23, green in bits
    8 to 15, blue in bits 0 to 7. *)
Module RGB.

Definition pack (r g b : Z) : Z :=
  Z.lor (Z.lor (Z.shiftl r 16) (Z.shiftl g 8)) b.

Definition red (v : Z) : Z := Z.land (Z.shiftr v 16) 0xFF.
Definition green (v : Z) : Z := Z.land (Z.shiftr v 8) 0xFF.
Definition blue (v : Z) : Z := Z.land v 0xFF.

Definition is_channel (x : Z) : Prop := 0 <= x < 2 ^ 8.

End RGB.

(** * Properties *)

(** ** The model against the header *)

(** The integers of the three enumerators are those the declaration gives. *)
Lemma enumerator_values :
  Header.enumerator_value Header.PlayerColour_hpp "RED" = Some RED /\
  Header.enumerator_value Header.PlayerColour_hpp "YELLOW" = Some YELLOW /\
  Header.enumerator_value Header.PlayerColour_hpp "EMPTY" = Some EMPTY.
Proof. repeat split; reflexivity. Qed.

(** ** The functional model, case by case *)

Lemma at_RED : playerColourToNeopixelColour RED = 0xFF0000.
Proof. reflexivity. Qed.

Lemma at_YELLOW : playerColourToNeopixelColour YELLOW = 0xFFFF00.
Proof. reflexivity. Qed.

Lemma at_other (colour : PlayerColour) :
  colour <> RED -> colour <> YELLOW ->
  playerColourToNeopixelColour colour = 0x000000.
Proof.
  intros Hred Hyellow. unfold playerColourToNeopixelColour.
  destruct (Z.eqb_spec colour RED) as [e | _]; [contradiction |].
  destruct (Z.eqb_spec colour YELLOW) as [e | _]; [contradiction |].
  reflexivity.
Qed.

(** The three ways a value of the enumeration type meets the switch. *)
Lemma switch_cases (colour : PlayerColour) :
  colour = RED \/ colour = YELLOW \/ (colour <> RED /\ colour <> YELLOW).
Proof. unfold RED, YELLOW. lia. Qed.

Ltac by_switch_cases colour :=
  destruct (switch_cases colour) as [-> | [-> | [? ?]]];
  [ rewrite ?at_RED | rewrite ?at_YELLOW | rewrite ?at_other by assumption ].

(** ** The statements against the functional model *)

(** Whatever the state, the body ends in a [return] of the functional
    model's value and hands the state back as it got it. *)
Lemma body_returns {World : Type} (colour : PlayerColour) (w : World) :
  Exec.playerColourToNeopixelColour_body colour w
  = (Exec.Returned (playerColourToNeopixelColour colour), w).
Proof.
  unfold Exec.playerColourToNeopixelColour_body, Exec.switch,
    playerColourToNeopixelColour.
  cbn [Exec.from_label Exec.is_case Exec.is_default].
  destruct (colour =? RED); [reflexivity |].
  destruct (colour =? YELLOW); reflexivity.
Qed.

Lemma call_returns {World : Type} (colour : PlayerColour) (w : World) :
  Exec.playerColourToNeopixelColour_call colour w
  = (Some (playerColourToNeopixelColour colour), w).
Proof.
  unfold Exec.playerColourToNeopixelColour_call, Exec.call.
  rewrite body_returns. reflexivity.
Qed.

Lemma result_is_uint32 (colour : PlayerColour) :
  is_uint32 (playerColourToNeopixelColour colour).
Proof.
  unfold is_uint32. by_switch_cases colour; lia.
Qed.

(** ** The packed format *)

(** Bit [i] of the mask [0xFF] is set exactly for [i] below 8. *)
Lemma testbit_0xFF (i : Z) : 0 <= i -> Z.testbit 0xFF i = (i <? 8).
Proof.
  intros Hi. change 0xFF with (Z.ones 8).
  destruct (Z.ltb_spec i 8).
  - apply Z.ones_spec_low; lia.
  - apply Z.ones_spec_high; lia.
Qed.

(** The channel readers take the bits the glossary names: blue bits 0 to 7,
    green bits 8 to 15, red bits 16 to 23. *)
Lemma blue_bits (v i : Z) :
  0 <= i -> Z.testbit (RGB.blue v) i = Z.testbit v i && (i <? 8).
Proof.
  intros Hi. unfold RGB.blue.
  rewrite Z.land_spec, testbit_0xFF by assumption. reflexivity.
Qed.

Lemma green_bits (v i : Z) :
  0 <= i -> Z.testbit (RGB.green v) i = Z.testbit v (i + 8) && (i <? 8).
Proof.
  intros Hi. unfold RGB.green.
  rewrite Z.land_spec, Z.shiftr_spec, testbit_0xFF by assumption.
  reflexivity.
Qed.

Lemma red_bits (v i : Z) :
  0 <= i -> Z.testbit (RGB.red v) i = Z.testbit v (i + 16) && (i <? 8).
Proof.
  intros Hi. unfold RGB.red.
  rewrite Z.land_spec, Z.shiftr_spec, testbit_0xFF by assumption.
  reflexivity.
Qed.

(** * The claims *)

(** C1: on the three enumerators the function returns the constants of the
    table: 0xFF0000 for RED, 0xFFFF00 for YELLOW and 0x000000 for EMPTY. *)
Theorem enumerators_map_to_table :
  playerColourToNeopixelColour RED = 0xFF0000 /\
  playerColourToNeopixelColour YELLOW = 0xFFFF00 /\
  playerColourToNeopixelColour EMPTY = 0x000000.
Proof. repeat split; reflexivity. Qed.

(** C2: a value of the enumeration type that is neither RED nor YELLOW, be it
    EMPTY or an integer that is none of the enumerators, is mapped to
    0x000000, and the call that does so ends in a [return] of that value: it
    does not fail. *)
Theorem unrecognised_maps_to_black
  {World : Type} (colour : PlayerColour) (w : World) :
  colour <> RED -> colour <> YELLOW ->
  playerColourToNeopixelColour colour = 0x000000 /\
  fst (Exec.playerColourToNeopixelColour_call colour w) = Some 0x000000.
Proof.
  intros Hred Hyellow. rewrite call_returns.
  rewrite (at_other colour Hred Hyellow). split; reflexivity.
Qed.

Lemma unrecognised_maps_to_black_at_EMPTY :
  EMPTY <> RED /\ EMPTY <> YELLOW /\
  playerColourToNeopixelColour EMPTY = 0x000000 /\
  fst (Exec.playerColourToNeopixelColour_call EMPTY tt) = Some 0x000000.
Proof.
  assert (Hred : EMPTY <> RED) by (unfold EMPTY, RED; lia).
  assert (Hyellow : EMPTY <> YELLOW) by (unfold EMPTY, YELLOW; lia).
  split; [exact Hred | split; [exact Hyellow |]].
  exact (unrecognised_maps_to_black EMPTY tt Hred Hyellow).
Defined.

(** Integers that no enumerator has, as a cast can produce them. *)
Example out_of_range_values :
  playerColourToNeopixelColour 3 = 0x000000 /\
  playerColourToNeopixelColour (-1) = 0x000000 /\
  playerColourToNeopixelColour 65535 = 0x000000.
Proof. repeat split; reflexivity. Qed.

(** C3: the result is always one of the three constants 0xFF0000, 0xFFFF00
    and 0x000000, and each of the three is the result for some input. *)
Theorem result_set :
  (forall colour : PlayerColour,
      playerColourToNeopixelColour colour = 0xFF0000 \/
      playerColourToNeopixelColour colour = 0xFFFF00 \/
      playerColourToNeopixelColour colour = 0x000000) /\
  (exists colour, playerColourToNeopixelColour colour = 0xFF0000) /\
  (exists colour, playerColourToNeopixelColour colour = 0xFFFF00) /\
  (exists colour, playerColourToNeopixelColour colour = 0x000000).
Proof.
  split.
  - intros colour. by_switch_cases colour; auto.
  - split; [exists RED | split; [exists YELLOW | exists EMPTY]]; reflexivity.
Qed.

(** C4: the function is total and cannot fail: for every value of the input
    type, in every state, the call ends in a [return] and the value returned
    is a uint32. *)
Theorem call_is_total {World : Type} (colour : PlayerColour) (w : World) :
  exists v : uint32,
    fst (Exec.playerColourToNeopixelColour_call colour w) = Some v /\
    is_uint32 v.
Proof.
  exists (playerColourToNeopixelColour colour). rewrite call_returns.
  split; [reflexivity | apply result_is_uint32].
Qed.

(** C5: the function is deterministic: two calls with the same input, in
    whatever states they are made, return values that are equal, bit for
    bit. *)
Theorem same_input_same_output
  {World : Type} (colour : PlayerColour) (w1 w2 : World) :
  exists v1 v2 : uint32,
    fst (Exec.playerColourToNeopixelColour_call colour w1) = Some v1 /\
    fst (Exec.playerColourToNeopixelColour_call colour w2) = Some v2 /\
    v1 = v2 /\
    (forall i : Z, Z.testbit v1 i = Z.testbit v2 i).
Proof.
  exists (playerColourToNeopixelColour colour).
  exists (playerColourToNeopixelColour colour).
  rewrite !call_returns. repeat split.
Qed.

(** C6: the result is below 2^24 and is the packing (R<<16 | G<<8 | B) of
    three 8-bit channels, which are its bits 16 to 23 (red), 8 to 15 (green)
    and 0 to 7 (blue). *)
Theorem result_is_packed_rgb (colour : PlayerColour) :
  exists r g b : Z,
    RGB.is_channel r /\ RGB.is_channel g /\ RGB.is_channel b /\
    playerColourToNeopixelColour colour = RGB.pack r g b /\
    RGB.red (playerColourToNeopixelColour colour) = r /\
    RGB.green (playerColourToNeopixelColour colour) = g /\
    RGB.blue (playerColourToNeopixelColour colour) = b /\
    0 <= playerColourToNeopixelColour colour < 2 ^ 24.
Proof.
  unfold RGB.is_channel.
  by_switch_cases colour;
    [ exists 255, 0, 0 | exists 255, 255, 0 | exists 0, 0, 0 ];
    repeat split; solve [reflexivity | lia].
Qed.

(** C7: the function has no side effects: any number of calls, one after the
    other, leaves the program state as it was, and each returns the value of
    the functional model. *)
Theorem calls_leave_state
  {World : Type} (n : nat) (colour : PlayerColour) (w : World) :
  Exec.calls n colour w
  = (repeat (Some (playerColourToNeopixelColour colour)) n, w).
Proof.
  induction n as [| n IH]; cbn [Exec.calls repeat].
  - reflexivity.
  - rewrite call_returns, IH. reflexivity.
Qed.

(** C8, as the specification words it, fails: the one function the header
    declares is not named [convertPlayerColourToDisplayColour]. *)
Lemma declared_function_is_not_the_specified :
  Header.functions Header.PlayerColour_hpp <> [Header.specified_signature].
Proof. intros H. discriminate H. Qed.

(** C8, amended: the header declares exactly one function, with the signature
    [uint32_t playerColourToNeopixelColour(PlayerColour colour)]: one
    parameter, of the enumeration the header declares, and a uint32 result. *)
Theorem public_surface :
  Header.functions Header.PlayerColour_hpp
  = [ {| Header.returns := Header.Tuint32_t;
         Header.name := "playerColourToNeopixelColour";
         Header.parameters := [(Header.Tenum "PlayerColour", "colour"%string)]
      |} ] /\
  Header.enums Header.PlayerColour_hpp
  = [ ("PlayerColour", ["RED"; "YELLOW"; "EMPTY"])%string ].
Proof. split; reflexivity. Qed.

(** C9: the function is injective on the three enumerators: RED, YELLOW and
    EMPTY have pairwise distinct results. *)
Theorem enumerators_distinguished :
  NoDup (map playerColourToNeopixelColour [RED; YELLOW; EMPTY]) /\
  playerColourToNeopixelColour RED <> playerColourToNeopixelColour YELLOW /\
  playerColourToNeopixelColour RED <> playerColourToNeopixelColour EMPTY /\
  playerColourToNeopixelColour YELLOW <> playerColourToNeopixelColour EMPTY.
Proof.
  cbn [map]. rewrite at_RED, at_YELLOW.
  change (playerColourToNeopixelColour EMPTY) with 0.
  split; [| repeat split; lia].
  repeat constructor; cbn [In]; lia.
Qed.

(** C10: the blue channel of the result is zero: its bits 0 to 7 are 0, that
    is, the result is divisible by 256. *)
Theorem blue_channel_is_zero (colour : PlayerColour) :
  RGB.blue (playerColourToNeopixelColour colour) = 0 /\
  Z.land (playerColourToNeopixelColour colour) 0xFF = 0 /\
  playerColourToNeopixelColour colour mod 256 = 0 /\
  (256 | playerColourToNeopixelColour colour).
Proof.
  by_switch_cases colour; repeat split;
    solve [ reflexivity | apply Z.divide_0_r
          | exists 65280; reflexivity | exists 65535; reflexivity ].
Qed.

(** * Further properties of [playerColourToNeopixelColour] *)

(** X1: the result tells the input apart as far as the switch does: it is
    0xFF0000 only for RED, 0xFFFF00 only for YELLOW, and 0x000000 exactly for
    the values that are neither, so that EMPTY and the integers of no
    enumerator cannot be told from one another. *)
Theorem colour_read_back (colour : PlayerColour) :
  (playerColourToNeopixelColour colour = 0xFF0000 <-> colour = RED) /\
  (playerColourToNeopixelColour colour = 0xFFFF00 <-> colour = YELLOW) /\
  (playerColourToNeopixelColour colour = 0x000000 <->
     colour <> RED /\ colour <> YELLOW).
Proof.
  by_switch_cases colour; unfold RED, YELLOW in *; lia.
Qed.

(** X2: every channel of the result is fully off or fully on.  Bits 16 to 23
    are 255 exactly when the colour is that of a player, RED or YELLOW, and 0
    otherwise; bits 8 to 15 are 255 exactly when it is YELLOW, and 0
    otherwise. *)
Theorem channels_tell_player (colour : PlayerColour) :
  (RGB.red (playerColourToNeopixelColour colour) = 255 <->
     colour = RED \/ colour = YELLOW) /\
  (RGB.red (playerColourToNeopixelColour colour) = 0 <->
     colour <> RED /\ colour <> YELLOW) /\
  (RGB.green (playerColourToNeopixelColour colour) = 255 <->
     colour = YELLOW) /\
  (RGB.green (playerColourToNeopixelColour colour) = 0 <->
     colour <> YELLOW).
Proof.
  by_switch_cases colour;
    [ change (RGB.red 0xFF0000) with 255; change (RGB.green 0xFF0000) with 0
    | change (RGB.red 0xFFFF00) with 255; change (RGB.green 0xFFFF00) with 255
    | change (RGB.red 0x000000) with 0; change (RGB.green 0x000000) with 0 ];
    unfold RED, YELLOW in *; lia.
Qed.
